(** * aislib: the sentence Router of [router.go]

    A shallow embedding of [Router] and of the Go library calls it makes
    ([strings.Split], [strconv.Atoi], slicing, indexing), followed by the
    properties of the function that the specification talks about.

    Go strings are byte sequences: they are modelled by [string], one
    [ascii] per byte.  Go's [int] is taken to be 64 bits wide.  A run-time
    panic (index or slice out of range) is the outcome [Panic]. *)

From Stdlib Require Import ZArith List String Ascii Bool Lia.
Import ListNotations.

Local Open Scope string_scope.
Local Open Scope Z_scope.

(** ** Outcomes of Go code that may panic *)

Inductive Run (A : Type) : Type :=
| Done (a : A)
| Panic.
Arguments Done {A} a.
Arguments Panic {A}.

Definition bind {A B : Type} (r : Run A) (k : A -> Run B) : Run B :=
  match r with
  | Done a => k a
  | Panic => Panic
  end.

Notation "x <- r ;; k" := (bind r (fun x => k))
  (at level 61, r at next level, right associativity).

(** ** The Go runtime and library operations used by [Router] *)

Module Go.

(** [int] arithmetic wraps around on 64 bits. *)
Definition int (z : Z) : Z := (z + 2 ^ 63) mod 2 ^ 64 - 2 ^ 63.

Definition minInt : Z := - 2 ^ 63.
Definition maxInt : Z := 2 ^ 63 - 1.

(** The conversion [uint8(x)] keeps the low eight bits. *)
Definition uint8 (z : Z) : Z := z mod 256.

Definition code (c : ascii) : Z := Z.of_N (N_of_ascii c).

(** [len(s)] *)
Definition len (s : string) : Z := Z.of_nat (String.length s).

(** [xs[i]]: panics when [i] is out of range. *)
Definition index {A : Type} (xs : list A) (i : nat) : Run A :=
  match nth_error xs i with
  | Some x => Done x
  | None => Panic
  end.

(** [s[lo:hi]]: panics unless [lo <= hi <= len(s)]. *)
Definition slice (s : string) (lo hi : nat) : Run string :=
  if (Nat.leb lo hi && Nat.leb hi (String.length s))%bool
  then Done (substring lo (hi - lo) s)
  else Panic.

(** [a[i] = v] on a fixed-size array: panics when [i] is out of range. *)
Fixpoint update (xs : list string) (i : nat) (v : string) : list string :=
  match xs, i with
  | [], _ => []
  | _ :: r, O => v :: r
  | x :: r, S j => x :: update r j v
  end.

Definition store (xs : list string) (i : Z) (v : string) : Run (list string) :=
  if ((0 <=? i) && (i <? Z.of_nat (List.length xs)))%bool
  then Done (update xs (Z.to_nat i) v)
  else Panic.

(** [strings.Split(s, ",")]: the fields between the commas, one more
    than there are commas. *)
Fixpoint Split (s : string) : list string :=
  match s with
  | EmptyString => [EmptyString]
  | String c r =>
      if Ascii.eqb c ","%char then EmptyString :: Split r
      else match Split r with
           | t :: ts => String c t :: ts
           | [] => [String c EmptyString]
           end
  end.

(** [strconv.Atoi]: an optional sign and one or more decimal digits.
    The result is the value and whether [err == nil].  The digits are
    read from the left into an unsigned 64-bit number: a byte that is not
    a digit is a syntax error, with value 0; a number that leaves 64 bits,
    or [int] once the sign is applied, is a range error, with the nearest
    bound of [int] as value.  Whichever comes first decides. *)
Definition is_digit (c : ascii) : bool := (48 <=? code c) && (code c <=? 57).

Definition maxUint64 : Z := 2 ^ 64 - 1.

Inductive Scan : Type :=
| Value (n : Z)
| Syntax
| Range.

Fixpoint digits (n : Z) (s : string) : Scan :=
  match s with
  | EmptyString => Value n
  | String c r =>
      if negb (is_digit c) then Syntax
      else if maxUint64 / 10 + 1 <=? n then Range
      else
        let n1 := n * 10 + (code c - 48) in
        if maxUint64 <? n1 then Range else digits n1 r
  end.

Definition Atoi (s : string) : Z * bool :=
  match s with
  | EmptyString => (0, false)
  | String c r =>
      let signed := (Ascii.eqb c "-"%char || Ascii.eqb c "+"%char)%bool in
      let neg := Ascii.eqb c "-"%char in
      let body := if signed then r else s in
      match body with
      | EmptyString => (0, false)
      | _ =>
          match digits 0 body with
          | Syntax => (0, false)
          | Range => if neg then (minInt, false) else (maxInt, false)
          | Value n =>
              if neg then
                if - minInt <? n then (minInt, false) else (- n, true)
              else
                if maxInt <? n then (maxInt, false) else (n, true)
          end
      end
  end.

End Go.

(** ** Data of [router.go] *)

(** [type Message struct { Type uint8; Payload string; Padding uint8 }] *)
Record Message : Type := mkMessage {
  Type_ : Z;
  Payload : string;
  Padding : Z
}.

(** What a call hands back: [(&Message{...}, nil)] or [(nil, errors.New(e))]. *)
Inductive Returned : Type :=
| Msg (m : Message)
| Err (e : string).

(** The local variables [Router] declares on lines 50-53.  [count],
    [size], [id], [payload] and [cache] are the fragment session of the
    specification (expectedIndex - 1, totalFragments, sequenceId,
    accumulatedPayload, rawCache). *)
Record Locals : Type := mkLocals {
  count : Z;
  ccount : Z;
  padding : Z;
  size : string;
  id : string;
  payload : string;
  cache : list string
}.

(** Lines 50-53: the values every call starts from. *)
Definition fresh : Locals :=
  {| count := 0; ccount := 0; padding := 0;
     size := "0"; id := "0"; payload := "";
     cache := [""; ""; ""; ""; ""] |}.

(** Assignments to the local variables. *)
Definition set_count (v : Z) (st : Locals) : Locals :=
  mkLocals v (ccount st) (padding st) (size st) (id st) (payload st) (cache st).
Definition set_ccount (v : Z) (st : Locals) : Locals :=
  mkLocals (count st) v (padding st) (size st) (id st) (payload st) (cache st).
Definition set_padding (v : Z) (st : Locals) : Locals :=
  mkLocals (count st) (ccount st) v (size st) (id st) (payload st) (cache st).
Definition set_size (v : string) (st : Locals) : Locals :=
  mkLocals (count st) (ccount st) (padding st) v (id st) (payload st) (cache st).
Definition set_id (v : string) (st : Locals) : Locals :=
  mkLocals (count st) (ccount st) (padding st) (size st) v (payload st) (cache st).
Definition set_payload (v : string) (st : Locals) : Locals :=
  mkLocals (count st) (ccount st) (padding st) (size st) (id st) v (cache st).
Definition set_cache (v : list string) (st : Locals) : Locals :=
  mkLocals (count st) (ccount st) (padding st) (size st) (id st) (payload st) v.

(** The [return] statement a call leaves through, by source line. *)
Inductive Site : Type := L60 | L65 | L69 | L73 | L77 | L83 | L86 | L101 | L104.

Record Exit : Type := mkExit {
  site : Site;
  returned : Returned;
  locals : Locals
}.

Definition leave (l : Site) (r : Returned) (st : Locals) : Run Exit :=
  Done (mkExit l r st).

(** Lines 55-58: the map of recognised identifiers; a key that is absent
    reads as [false]. *)
Definition aisIdentifiers_table : list (string * bool) :=
  [ ("ABVD", true); ("ADVD", true); ("AIVD", true); ("ANVD", true);
    ("ARVD", true); ("ASVD", true); ("ATVD", true); ("AXVD", true);
    ("BSVD", true); ("SAVD", true) ].

Fixpoint lookup (m : list (string * bool)) (k : string) : bool :=
  match m with
  | [] => false
  | (k', v) :: r => if String.eqb k k' then v else lookup r k
  end.

Definition aisIdentifiers (k : string) : bool := lookup aisIdentifiers_table k.

(** The message line 104 returns when a call ends without a completed
    message and without an error. *)
Definition sentinel : Message := mkMessage 255 "" 0.

Definition out_of_order : string := "incomplete/out of order span sentence".

Section Router.

(** The two collaborators are declared in other files of the package:
    the NMEA 0183 checksum test and the classifier of a payload's
    message type. *)
Variable Nmea183ChecksumCheck : string -> bool.
Variable MessageType : string -> Z.

(** Lines 91-104: the fragment is taken into the session. *)
Definition Router_accept (st : Locals) (sentence : string)
           (tokens : list string) : Run Exit :=
  t5 <- Go.index tokens 5 ;;
  let st := set_payload (payload st ++ t5)%string st in          (* 91 *)
  cache' <- Go.store (cache st) (Go.int (ccount st - 1)) sentence ;;
  let st := set_cache cache' st in                               (* 92 *)
  let st := set_count (Go.int (count st + 1)) st in              (* 93 *)
  if ccount st =? 1 then                                         (* 94 *)
    t1 <- Go.index tokens 1 ;;
    let st := set_size t1 st in                                  (* 95 *)
    t3 <- Go.index tokens 3 ;;
    let st := set_id t3 st in                                    (* 96 *)
    leave L104 (Msg sentinel) st
  else
    t2 <- Go.index tokens 2 ;;
    if (String.eqb (size st) t2 && (count st =? ccount st))%bool then  (* 97 *)
      t6 <- Go.index tokens 6 ;;
      p <- Go.slice t6 0 1 ;;
      let st := set_padding (fst (Go.Atoi p)) st in              (* 98 *)
      let st := set_count 0 st in                                (* 99 *)
      let st := set_payload "" st in                             (* 100 *)
      leave L101
            (Msg (mkMessage (MessageType (payload st)) (payload st)
                            (Go.uint8 (padding st))))
            st
    else
      leave L104 (Msg sentinel) st.

(** Lines 79-81: the condition of the continuity test, its operands
    evaluated left to right with [||] and [&&] short-circuiting. *)
Definition discontinuous (st : Locals) (tokens : list string) : Run bool :=
  if negb (ccount st =? Go.int (count st + 1)) then Done true
  else
    t3 <- Go.index tokens 3 ;;
    if (negb (String.eqb t3 (id st)) && negb (count st =? 0))%bool then Done true
    else
      t1 <- Go.index tokens 1 ;;
      Done (negb (String.eqb t1 (size st)) && negb (count st =? 0))%bool.

(** Lines 75-104: the sentence is one part of a message that spans
    several sentences.  The loop of lines 82-84 returns in its first
    round, which it has when [0 < count]. *)
Definition Router_span (st : Locals) (sentence : string)
           (tokens : list string) : Run Exit :=
  t2 <- Go.index tokens 2 ;;
  let st := set_ccount (fst (Go.Atoi t2)) st in                  (* 75 *)
  if negb (snd (Go.Atoi t2)) then
    leave L77 (Err ("here: " ++ t2)%string) st
  else
    d <- discontinuous st tokens ;;
    if d then
      if 0 <? count st then leave L83 (Err out_of_order) st
      else if negb (ccount st =? 1) then leave L86 (Err out_of_order) st
      else
        let st := set_count 0 st in                              (* 88 *)
        let st := set_payload "" st in                           (* 89 *)
        Router_accept st sentence tokens
    else Router_accept st sentence tokens.

(** [tokens[0][1:5]] of line 68. *)
Definition identifier (tokens : list string) : Run string :=
  t0 <- Go.index tokens 0 ;; Go.slice t0 1 5.

(** Lines 59-104, from given values of the local variables. *)
Definition Router_body (st : Locals) (sentence : string) : Run Exit :=
  if Go.len sentence =? 0 then leave L60 (Err "empty line") st
  else
    let tokens := Go.Split sentence in
    if negb (Nmea183ChecksumCheck sentence) then
      leave L65 (Err "checksum failed") st
    else
      tag <- identifier tokens ;;
      if negb (aisIdentifiers tag) then
        leave L69 (Err "sentence isn't AIVDM/AIVDO") st
      else
        t1 <- Go.index tokens 1 ;;
        if String.eqb t1 "1" then
          t5 <- Go.index tokens 5 ;;
          leave L73 (Msg (mkMessage (MessageType t5) t5 (Go.uint8 (padding st)))) st
        else Router_span st sentence tokens.

(** [func Router(sentence string)]: the local variables are initialised
    on entry and gone on return. *)
Definition Router (sentence : string) : Run Returned :=
  e <- Router_body fresh sentence ;; Done (returned e).

(** The return statement a call of [Router] leaves through. *)
Definition Router_site (sentence : string) : Run Site :=
  e <- Router_body fresh sentence ;; Done (site e).

(** Successive calls of [Router], one per sentence, in order. *)
Definition Router_calls (sentences : list string) : list (Run Returned) :=
  map Router sentences.

(** ** Vocabulary of the statements *)

(** Field [i] of a sentence, when it has one. *)
Definition field (sentence : string) (i : nat) : option string :=
  nth_error (Go.Split sentence) i.

(** The sentence is not empty, its checksum is right and the four bytes
    after the first one are a recognised identifier: it gets past
    lines 59-70. *)
Definition cleared (sentence : string) : bool :=
  negb (Go.len sentence =? 0) && Nmea183ChecksumCheck sentence &&
  match identifier (Go.Split sentence) with
  | Done tag => aisIdentifiers tag
  | Panic => false
  end.

End Router.

(** ** The collaborators, for running [Router] on concrete sentences *)

Module Collaborators.

Fixpoint xor_to_star (acc : Z) (s : string) : option (Z * string) :=
  match s with
  | EmptyString => None
  | String c r =>
      if Ascii.eqb c "*"%char then Some (acc, r)
      else xor_to_star (Z.lxor acc (Go.code c)) r
  end.

Definition hex_digit (n : Z) : ascii :=
  match String.get (Z.to_nat n) "0123456789ABCDEF" with
  | Some c => c
  | None => "0"%char
  end.

Definition hex2 (n : Z) : string :=
  String (hex_digit (n / 16)) (String (hex_digit (n mod 16)) EmptyString).

(** Modelled from the spec: [Nmea183ChecksumCheck] is defined in a file
    of the package other than [router.go]; the specification gives its
    interface as [verifyChecksum], "NMEA 0183's trailing [*HH] checksum
    (XOR of byte values between [!]/[$] and [*], rendered as two hex
    digits)". *)
Definition verifyChecksum (sentence : string) : bool :=
  match sentence with
  | EmptyString => false
  | String c r =>
      ((Ascii.eqb c "!"%char || Ascii.eqb c "$"%char) &&
       match xor_to_star 0 r with
       | Some (x, hh) => String.eqb hh (hex2 x)
       | None => false
       end)%bool
  end.

(** Modelled from the spec: [MessageType] is defined in a file of the
    package other than [router.go]; the specification gives its
    interface as [classifyType], "decoding the AIS message type from
    the payload's leading 6-bit-encoded characters".  The model decodes
    the first character by the AIS payload armouring (0 for an empty
    payload). *)
Definition classifyType (payload : string) : Z :=
  match payload with
  | EmptyString => 0
  | String c _ =>
      let v := Go.code c - 48 in
      if 40 <? v then v - 8 else v
  end.

End Collaborators.


(** Two sentences of one message (total 2, sequence id 3), and the
    collaborators [Router] is run with on concrete sentences. *)
Definition part1 : string :=
  "!AIVDM,2,1,3,B,55P5TL01VIaAL@7WKO@mBplU@<PDhh000000001S;AJ::4A80?4i@E53,0*3E".
Definition part2 : string :=
  "!AIVDM,2,2,3,B,1@0000000000000,2*55".

Definition payload1 : string :=
  "55P5TL01VIaAL@7WKO@mBplU@<PDhh000000001S;AJ::4A80?4i@E53".

(** [part2] with a wrong checksum. *)
Definition part2_corrupted : string :=
  "!AIVDM,2,2,3,B,1@0000000000000,2*54".

(** A first part of another message (sequence id 7). *)
Definition injected : string :=
  "!AIVDM,2,1,7,A,1@0000000000000,0*53".

(** A message in one sentence. *)
Definition single : string :=
  "!AIVDM,1,1,,B,15NPOOPP00G?5ABEdu>pEowb0,0*64".

(** A message in one sentence, cut after field 2. *)
Definition single_short : string := "!AIVDM,1,1*57".

(** A part whose number is not a number. *)
Definition misnumbered : string :=
  "!AIVDM,2,x,3,B,1@0000000000000,2*1F".

(** The first two parts of a message in three sentences (sequence
    id 5), and the sixth part of a message in six (sequence id 3). *)
Definition three_1 : string := "!AIVDM,3,1,5,A,abc,0*71".
Definition three_2 : string := "!AIVDM,3,2,5,A,def,0*75".
Definition sixth : string := "!AIVDM,6,6,3,B,xyz,0*6D".

(** Values of the local variables with a session in progress: after
    [part1], after [three_1], and with five parts of a message in six
    taken in. *)
Definition after_part1 : Locals :=
  mkLocals 1 1 0 "2" "3" payload1 [part1; ""; ""; ""; ""].
Definition after_three_1 : Locals :=
  mkLocals 1 1 0 "3" "5" "abc" [three_1; ""; ""; ""; ""].
Definition five_taken : Locals :=
  mkLocals 5 5 0 "6" "3" "abcde" ["p1"; "p2"; "p3"; "p4"; "p5"].

Definition run : string -> Run Returned :=
  Router Collaborators.verifyChecksum Collaborators.classifyType.
Definition run_site : string -> Run Site :=
  Router_site Collaborators.verifyChecksum Collaborators.classifyType.
Definition run_body : Locals -> string -> Run Exit :=
  Router_body Collaborators.verifyChecksum Collaborators.classifyType.
Definition run_calls : list string -> list (Run Returned) :=
  Router_calls Collaborators.verifyChecksum Collaborators.classifyType.

(** * Properties *)

(** Closes a goal about concrete sentences by evaluation. *)
Ltac by_running := vm_compute; first [reflexivity | lia | discriminate].

Lemma slice_in_range (s : string) (lo hi : nat) :
  (lo <= hi)%nat -> (hi <= String.length s)%nat ->
  Go.slice s lo hi = Done (substring lo (hi - lo) s).
Proof.
  intros H1 H2. unfold Go.slice.
  apply Nat.leb_le in H1, H2. now rewrite H1, H2.
Qed.

Section Properties.

Variable Nmea183ChecksumCheck : string -> bool.
Variable MessageType : string -> Z.

Local Abbreviation Router_body := (Router_body Nmea183ChecksumCheck MessageType).
Local Abbreviation Router_span := (Router_span MessageType).
Local Abbreviation Router_accept := (Router_accept MessageType).
Local Abbreviation Router := (Router Nmea183ChecksumCheck MessageType).
Local Abbreviation Router_site := (Router_site Nmea183ChecksumCheck MessageType).
Local Abbreviation Router_calls := (Router_calls Nmea183ChecksumCheck MessageType).
Local Abbreviation cleared := (cleared Nmea183ChecksumCheck).

Lemma cleared_inv (s : string) :
  cleared s = true ->
  (Go.len s =? 0) = false /\ Nmea183ChecksumCheck s = true /\
  exists tag, identifier (Go.Split s) = Done tag /\ aisIdentifiers tag = true.
Proof.
  unfold cleared. intros H.
  apply andb_prop in H as [H Hid]. apply andb_prop in H as [Hlen Hchk].
  apply negb_true_iff in Hlen.
  destruct (identifier (Go.Split s)) as [tag|]; [|discriminate].
  repeat split; auto. now exists tag.
Qed.

(** Past lines 59-70 a call goes on with line 72. *)
Lemma Router_body_cleared (st : Locals) (s : string) :
  cleared s = true ->
  Router_body st s =
  (t1 <- Go.index (Go.Split s) 1 ;;
   if String.eqb t1 "1" then
     t5 <- Go.index (Go.Split s) 5 ;;
     leave L73 (Msg (mkMessage (MessageType t5) t5 (Go.uint8 (padding st)))) st
   else Router_span st s (Go.Split s)).
Proof.
  intros H. destruct (cleared_inv s H) as (Hlen & Hchk & tag & Htag & Hais).
  unfold Router_body. rewrite Hlen, Hchk. simpl negb. cbv iota.
  rewrite Htag. simpl bind. rewrite Hais. reflexivity.
Qed.

Lemma index_field (s : string) (i : nat) (t : string) :
  field s i = Some t -> Go.index (Go.Split s) i = Done t.
Proof. unfold field, Go.index. now intros ->. Qed.

(** A fragment numbered 1 leaves [Router_accept] through line 104. *)
Lemma Router_accept_first (st : Locals) (s : string) (toks : list string) (e : Exit) :
  ccount st = 1 -> Router_accept st s toks = Done e ->
  site e = L104 /\ returned e = Msg sentinel.
Proof.
  intros Hc. unfold Router_accept.
  destruct (Go.index toks 5) as [t5|]; simpl; [|discriminate].
  destruct (Go.store _ _ _) as [c'|]; simpl; [|discriminate].
  rewrite Hc. simpl.
  destruct (Go.index toks 1) as [t1|]; simpl; [|discriminate].
  destruct (Go.index toks 3) as [t3|]; simpl; [|discriminate].
  unfold leave. intros [= <-]. now split.
Qed.

(** From the initial values of the local variables, the part of the
    function for spanning messages ends with an error or through
    line 104, or panics. *)
Lemma Router_span_fresh (s : string) (toks : list string) (e : Exit) :
  Router_span fresh s toks = Done e ->
  site e = L77 \/ site e = L86 \/ (site e = L104 /\ returned e = Msg sentinel).
Proof.
  unfold Router_span.
  destruct (Go.index toks 2) as [t2|]; simpl; [|discriminate].
  destruct (Go.Atoi t2) as [n ok]. simpl.
  destruct ok; simpl.
  2:{ unfold leave. intros [= <-]. now left. }
  unfold discontinuous. simpl count. simpl ccount.
  change (Go.int (0 + 1)) with 1.
  destruct (n =? 1) eqn:Hn; simpl.
  - apply Z.eqb_eq in Hn. subst n.
    destruct (Go.index toks 3) as [t3|]; simpl; [|discriminate].
    rewrite andb_false_r.
    destruct (Go.index toks 1) as [t1|]; simpl; [|discriminate].
    rewrite andb_false_r. intros H. right. right.
    eapply Router_accept_first; [|exact H]. reflexivity.
  - unfold leave. intros [= <-]. right. now left.
Qed.

(** The return statements a call of [Router] can leave through. *)
Lemma Router_exits (s : string) (e : Exit) :
  Router_body fresh s = Done e ->
  site e = L60 \/ site e = L65 \/ site e = L69 \/ site e = L73 \/
  site e = L77 \/ site e = L86 \/ (site e = L104 /\ returned e = Msg sentinel).
Proof.
  unfold Router_body.
  destruct (Go.len s =? 0). { unfold leave. intros [= <-]. auto. }
  destruct (Nmea183ChecksumCheck s); simpl.
  2:{ unfold leave. intros [= <-]. auto. }
  destruct (identifier (Go.Split s)) as [tag|]; simpl; [|discriminate].
  destruct (aisIdentifiers tag); simpl.
  2:{ unfold leave. intros [= <-]. auto. }
  destruct (Go.index (Go.Split s) 1) as [t1|]; simpl; [|discriminate].
  destruct (String.eqb t1 "1").
  - destruct (Go.index (Go.Split s) 5) as [t5|]; simpl; [|discriminate].
    unfold leave. intros [= <-]. auto 6.
  - intros H. apply Router_span_fresh in H. intuition.
Qed.

(** C10.  A sentence that gets past the emptiness, checksum and
    identifier checks, whose field 1 is not "1" and whose field 2 parses
    to an integer other than 1, is answered with the error
    "incomplete/out of order span sentence"; and no call of [Router]
    leaves through the return statement of line 101, where a spanning
    message would be completed. *)
Theorem Router_later_part_rejected :
  (forall (s t1 t2 : string) (n : Z),
      cleared s = true ->
      field s 1 = Some t1 -> t1 <> "1" ->
      field s 2 = Some t2 -> Go.Atoi t2 = (n, true) -> n <> 1 ->
      Router s = Done (Err out_of_order)) /\
  (forall s : string, Router_site s <> Done L101).
Proof.
  split.
  - intros s t1 t2 n Hc H1 Hne H2 Hat Hn.
    unfold Router. rewrite (Router_body_cleared _ _ Hc).
    rewrite (index_field _ _ _ H1). simpl bind.
    apply String.eqb_neq in Hne. rewrite Hne.
    unfold Router_span. rewrite (index_field _ _ _ H2). simpl bind.
    rewrite Hat. simpl.
    unfold discontinuous. simpl.
    change (Go.int 1) with 1.
    apply Z.eqb_neq in Hn. rewrite Hn. reflexivity.
  - intros s. unfold Router_site.
    destruct (Router_body fresh s) as [e|] eqn:He; simpl; [|discriminate].
    apply Router_exits in He. intros [= H]. rewrite H in He.
    intuition discriminate.
Qed.

(** X14.  A sentence that gets past the emptiness, checksum and
    identifier checks, whose field 1 is "1" and which has a field 5, is
    answered in the same call, through line 73, with the message whose
    type is the classifier's value on field 5, whose payload is field 5
    and whose padding is 0. *)
Theorem Router_single_sentence (s p : string) :
  cleared s = true ->
  field s 1 = Some "1" ->
  field s 5 = Some p ->
  Router s = Done (Msg (mkMessage (MessageType p) p 0)) /\
  Router_site s = Done L73.
Proof.
  intros Hc H1 H5. unfold Router, Router_site.
  rewrite (Router_body_cleared _ _ Hc).
  rewrite (index_field _ _ _ H1). simpl bind.
  rewrite (index_field _ _ _ H5). now split.
Qed.

(** C8.  On the path for spanning messages (field 1 is not "1"), a
    field 2 that [strconv.Atoi] rejects is answered with the error
    "here: " followed by field 2, and with no message. *)
Theorem Router_bad_index (s t1 t2 : string) :
  cleared s = true ->
  field s 1 = Some t1 -> t1 <> "1" ->
  field s 2 = Some t2 -> snd (Go.Atoi t2) = false ->
  Router s = Done (Err ("here: " ++ t2)%string) /\
  Router_site s = Done L77.
Proof.
  intros Hc H1 Hne H2 Hat. unfold Router, Router_site.
  rewrite (Router_body_cleared _ _ Hc).
  rewrite (index_field _ _ _ H1). simpl bind.
  apply String.eqb_neq in Hne. rewrite Hne.
  unfold Router_span. rewrite (index_field _ _ _ H2). simpl bind.
  rewrite Hat. now split.
Qed.

Lemma index_length {A : Type} (xs : list A) (i : nat) :
  (i < List.length xs)%nat -> exists x, Go.index xs i = Done x.
Proof.
  intros H. unfold Go.index.
  destruct (nth_error xs i) as [x|] eqn:E; [now exists x|].
  apply nth_error_None in E. lia.
Qed.

(** X13.  A sentence that gets past the checks, whose field 1 is not
    "1", whose field 2 parses to 1 and which has fields 0 to 5 is taken
    as the first part of a spanning message: the call ends through
    line 104 with no error and with the message of type 255, empty
    payload and padding 0. *)
Theorem Router_pending_is_sentinel (s t1 t2 : string) :
  cleared s = true ->
  field s 1 = Some t1 -> t1 <> "1" ->
  field s 2 = Some t2 -> Go.Atoi t2 = (1, true) ->
  (5 < List.length (Go.Split s))%nat ->
  Router s = Done (Msg sentinel) /\ Router_site s = Done L104.
Proof.
  intros Hc H1 Hne H2 Hat Hlen. unfold Router, Router_site.
  rewrite (Router_body_cleared _ _ Hc).
  rewrite (index_field _ _ _ H1). simpl bind.
  apply String.eqb_neq in Hne. rewrite Hne.
  unfold Router_span. rewrite (index_field _ _ _ H2). simpl bind.
  rewrite Hat. simpl.
  unfold discontinuous. simpl.
  destruct (index_length (Go.Split s) 3) as [t3 H3]; [lia|].
  destruct (index_length (Go.Split s) 5) as [t5 H5]; [lia|].
  rewrite H3. simpl. rewrite andb_false_r.
  rewrite (index_field _ _ _ H1). simpl. rewrite andb_false_r.
  unfold Router_accept. rewrite H5. simpl.
  rewrite H3, (index_field _ _ _ H1). now split.
Qed.

(** ** What the body does to the local variables *)

(** X2.  A sentence whose checksum is wrong is answered with "checksum
    failed" and the local variables are the ones the body started from. *)
Lemma checksum_failure_keeps_locals (st : Locals) (s : string) :
  s <> "" -> Nmea183ChecksumCheck s = false ->
  Router_body st s = Done (mkExit L65 (Err "checksum failed") st).
Proof.
  intros Hs Hchk. unfold Router_body.
  destruct s as [|c r]; [congruence|].
  change (Go.len (String c r) =? 0) with (Z.of_nat (S (String.length r)) =? 0).
  destruct (Z.eqb_spec (Z.of_nat (S (String.length r))) 0) as [E|_]; [lia|].
  now rewrite Hchk.
Qed.

(** [Router_accept] never ends with an error. *)
Lemma Router_accept_returns_message (st : Locals) (s : string)
      (toks : list string) (e : Exit) :
  Router_accept st s toks = Done e -> exists m, returned e = Msg m.
Proof.
  unfold Router_accept.
  destruct (Go.index toks 5) as [t5|]; simpl; [|discriminate].
  destruct (Go.store _ _ _) as [c'|]; simpl; [|discriminate].
  destruct (ccount st =? 1).
  - destruct (Go.index toks 1) as [t1|]; simpl; [|discriminate].
    destruct (Go.index toks 3) as [t3|]; simpl; [|discriminate].
    unfold leave. intros [= <-]. simpl. eauto.
  - destruct (Go.index toks 2) as [t2|]; simpl; [|discriminate].
    destruct (_ && _)%bool.
    + destruct (Go.index toks 6) as [t6|]; simpl; [|discriminate].
      destruct (Go.slice t6 0 1) as [q|]; simpl; [|discriminate].
      unfold leave. intros [= <-]. simpl. eauto.
    + unfold leave. intros [= <-]. simpl. eauto.
Qed.

(** An exit with an error: the claim on the variables is immediate, the
    second run remains. *)
Ltac left_by_error :=
  unfold leave; intros [= <-] _;
  split; [now repeat split | cbn [locals]].

(** A run of the body that ends with an error, and the run after it. *)
Lemma Router_body_rejection (st : Locals) (s msg : string) (e : Exit) :
  Router_body st s = Done e -> returned e = Err msg ->
  (count (locals e) = count st /\ padding (locals e) = padding st /\
   size (locals e) = size st /\ id (locals e) = id st /\
   payload (locals e) = payload st /\ cache (locals e) = cache st) /\
  Router_body (locals e) s = Done e.
Proof.
  unfold Router_body.
  destruct (Go.len s =? 0). { now left_by_error. }
  destruct (Nmea183ChecksumCheck s); simpl. 2:{ now left_by_error. }
  destruct (identifier (Go.Split s)) as [tag|]; simpl; [|discriminate].
  destruct (aisIdentifiers tag); simpl. 2:{ now left_by_error. }
  destruct (Go.index (Go.Split s) 1) as [t1|]; simpl; [|discriminate].
  destruct (String.eqb t1 "1").
  { destruct (Go.index (Go.Split s) 5) as [t5|]; simpl; [|discriminate].
    unfold leave. intros [= <-]. discriminate. }
  unfold Router_span.
  destruct (Go.index (Go.Split s) 2) as [t2|]; simpl; [|discriminate].
  destruct (Go.Atoi t2) as [n ok]. simpl.
  destruct ok; simpl. 2:{ now left_by_error. }
  destruct (discontinuous _ _) as [d|] eqn:Hd; simpl; [|discriminate].
  destruct d.
  - destruct (0 <? count st) eqn:Hcnt.
    + left_by_error. unfold discontinuous in *. simpl in *.
      rewrite Hd. simpl. now rewrite Hcnt.
    + destruct (n =? 1) eqn:Hn; simpl.
      * intros H. apply Router_accept_returns_message in H as [m Hm].
        congruence.
      * left_by_error. unfold discontinuous in *. simpl in *.
        rewrite Hd. simpl. rewrite ?Hcnt, ?Hn. reflexivity.
  - intros H. apply Router_accept_returns_message in H as [m Hm]. congruence.
Qed.

(** X3.  Whatever the local variables hold, a rejection changes none of
    them but the scratch variable [ccount], and the body run again on the
    same sentence from the variables the rejection left ends the same
    way. *)
Lemma rejection_is_stable (st : Locals) (s msg : string) (e : Exit) :
  Router_body st s = Done e -> returned e = Err msg ->
  (count (locals e) = count st /\ padding (locals e) = padding st /\
   size (locals e) = size st /\ id (locals e) = id st /\
   payload (locals e) = payload st /\ cache (locals e) = cache st) /\
  Router_body (locals e) s = Done e.
Proof. exact (Router_body_rejection st s msg e). Qed.

(** C9.  A sentence that a run of the body rejects with an error is
    rejected again when it is fed a second time: from the local
    variables the rejection left, the second run ends with the same
    error through the same return statement; and two calls of [Router]
    in a row, each from the initial values, return that error both
    times. *)
Theorem Router_rejection_idempotent (st : Locals) (s msg : string) (e1 : Exit) :
  Router_body st s = Done e1 -> returned e1 = Err msg ->
  (exists e2,
      Router_body (locals e1) s = Done e2 /\
      returned e2 = Err msg /\ site e2 = site e1) /\
  (st = fresh -> Router_calls [s; s] = [Done (Err msg); Done (Err msg)]).
Proof.
  intros H Hr. split.
  - exists e1. split; [|now split].
    exact (proj2 (Router_body_rejection st s msg e1 H Hr)).
  - intros ->. unfold Router_calls, Router. cbn [map].
    rewrite H. cbn [bind]. now rewrite Hr.
Qed.

(** X1.  A sentence with six fields or more, the first of five bytes or
    more, makes no call of [Router] panic. *)
Lemma Router_returns_on_long_sentences (s t0 : string) :
  (5 < List.length (Go.Split s))%nat ->
  field s 0 = Some t0 -> (5 <= String.length t0)%nat ->
  exists r, Router s = Done r.
Proof.
  intros Hlen H0 Ht0. unfold Router, Router_body.
  destruct (Go.len s =? 0); [simpl; eauto|].
  destruct (Nmea183ChecksumCheck s); simpl; [|eauto].
  unfold identifier. rewrite (index_field _ _ _ H0). cbn [bind].
  rewrite slice_in_range by lia. cbn [bind].
  destruct (aisIdentifiers _); simpl; [|eauto].
  destruct (index_length (Go.Split s) 1) as [t1 H1]; [lia|].
  destruct (index_length (Go.Split s) 2) as [t2 H2]; [lia|].
  destruct (index_length (Go.Split s) 3) as [t3 H3]; [lia|].
  destruct (index_length (Go.Split s) 5) as [t5 H5]; [lia|].
  rewrite H1. simpl.
  destruct (String.eqb t1 "1"). { rewrite H5. simpl. eauto. }
  unfold Router_span. rewrite H2. simpl.
  destruct (Go.Atoi t2) as [n ok]. simpl.
  destruct ok; simpl; [|eauto].
  unfold discontinuous. simpl. change (Go.int 1) with 1.
  destruct (n =? 1) eqn:Hn; simpl; [|eauto].
  apply Z.eqb_eq in Hn. subst n.
  rewrite H3. simpl. rewrite andb_false_r. rewrite H1. simpl.
  rewrite andb_false_r.
  unfold Router_accept. rewrite H5. simpl. rewrite H1, H3. simpl. eauto.
Qed.

(** ** The function without its session variables *)

Lemma index_beyond {A : Type} (xs : list A) (i j : nat) :
  Go.index xs i = Panic -> (i <= j)%nat -> Go.index xs j = Panic.
Proof.
  unfold Go.index. intros H Hij.
  destruct (nth_error xs i) eqn:E; [discriminate|].
  apply nth_error_None in E.
  destruct (nth_error xs j) eqn:F; [|reflexivity].
  assert (nth_error xs j <> None) as N by congruence.
  apply nth_error_Some in N. lia.
Qed.

#[local] Arguments Go.index : simpl never.

(** The result of a call, written without the session variables. *)
Local Abbreviation flat s :=
  (if Go.len s =? 0 then Done (Err "empty line")
  else if negb (Nmea183ChecksumCheck s) then Done (Err "checksum failed")
  else
    tag <- identifier (Go.Split s) ;;
    if negb (aisIdentifiers tag) then Done (Err "sentence isn't AIVDM/AIVDO")
    else
      t1 <- Go.index (Go.Split s) 1 ;;
      if String.eqb t1 "1" then
        t5 <- Go.index (Go.Split s) 5 ;;
        Done (Msg (mkMessage (MessageType t5) t5 0))
      else
        t2 <- Go.index (Go.Split s) 2 ;;
        if negb (snd (Go.Atoi t2)) then Done (Err ("here: " ++ t2)%string)
        else if negb (fst (Go.Atoi t2) =? 1) then Done (Err out_of_order)
        else
          t5 <- Go.index (Go.Split s) 5 ;;
          Done (Msg sentinel)).

Lemma Router_flat (s : string) : Router s = flat s.
Proof.
  unfold Router, Router_body.
  destruct (Go.len s =? 0); [reflexivity|].
  destruct (Nmea183ChecksumCheck s); [|reflexivity]. cbn [negb].
  destruct (identifier (Go.Split s)) as [tag|]; [|reflexivity]. cbn [bind].
  destruct (aisIdentifiers tag); [|reflexivity]. cbn [negb].
  destruct (Go.index (Go.Split s) 1) as [t1|] eqn:H1; [|reflexivity]. cbn [bind].
  destruct (String.eqb t1 "1").
  { destruct (Go.index (Go.Split s) 5); reflexivity. }
  unfold Router_span.
  destruct (Go.index (Go.Split s) 2) as [t2|]; [|reflexivity]. cbn [bind].
  destruct (Go.Atoi t2) as [n ok]. cbn [fst snd].
  destruct ok; [|reflexivity]. cbn [negb].
  unfold discontinuous. simpl. change (Go.int 1) with 1.
  destruct (n =? 1) eqn:Hn; [|reflexivity]. simpl.
  apply Z.eqb_eq in Hn. subst n.
  destruct (Go.index (Go.Split s) 3) as [t3|] eqn:H3; simpl.
  - rewrite ?andb_false_r. rewrite H1. simpl. rewrite ?andb_false_r.
    unfold Router_accept.
    destruct (Go.index (Go.Split s) 5) as [t5|]; [|reflexivity].
    simpl. now rewrite H1, H3.
  - now rewrite (index_beyond _ 3 5 H3) by lia.
Qed.

(** X4.  What a call of [Router] returns, for every sentence and whatever
    the collaborators answer: the checks of lines 59-70, the message of
    line 73, and on the path for spanning messages an error unless
    field 2 parses to 1, in which case the message of line 104.  A panic
    is a missing field or a first field under five bytes.  None of
    [count], [size], [id], [payload], [cache] has a part in it. *)
Theorem Router_closed_form (s : string) :
  Router s =
  if Go.len s =? 0 then Done (Err "empty line")
  else if negb (Nmea183ChecksumCheck s) then Done (Err "checksum failed")
  else
    tag <- identifier (Go.Split s) ;;
    if negb (aisIdentifiers tag) then Done (Err "sentence isn't AIVDM/AIVDO")
    else
      t1 <- Go.index (Go.Split s) 1 ;;
      if String.eqb t1 "1" then
        t5 <- Go.index (Go.Split s) 5 ;;
        Done (Msg (mkMessage (MessageType t5) t5 0))
      else
        t2 <- Go.index (Go.Split s) 2 ;;
        if negb (snd (Go.Atoi t2)) then Done (Err ("here: " ++ t2)%string)
        else if negb (fst (Go.Atoi t2) =? 1) then Done (Err out_of_order)
        else
          t5 <- Go.index (Go.Split s) 5 ;;
          Done (Msg sentinel).
Proof. exact (Router_flat s). Qed.

Lemma field_index (s : string) (i : nat) (t : string) :
  Go.index (Go.Split s) i = Done t -> field s i = Some t.
Proof.
  unfold field, Go.index.
  destruct (nth_error (Go.Split s) i); now intros [= ->].
Qed.

Lemma len_zero (s : string) : (Go.len s =? 0) = true <-> s = "".
Proof.
  unfold Go.len. destruct s as [|c r]; simpl String.length.
  - now split.
  - split; [|discriminate]. intros H. apply Z.eqb_eq in H. lia.
Qed.

(** One step through the nested tests and field accesses of a call. *)
Ltac flat_step :=
  match goal with
  | |- context [bind ?r _] =>
      let E := fresh "E" in destruct r eqn:E; cbn [bind]
  | |- context [if ?b then _ else _] =>
      let E := fresh "E" in destruct b eqn:E
  end.

(** Two results that differ cannot be equal. *)
Ltac clash :=
  solve [ discriminate | simpl; discriminate
        | intros; simpl in *; discriminate ].

(** Boolean tests among the hypotheses, as propositions. *)
Ltac facts :=
  repeat match goal with
  | H : String.eqb _ _ = true |- _ => apply String.eqb_eq in H
  | H : String.eqb _ _ = false |- _ => apply String.eqb_neq in H
  | H : negb _ = true |- _ => apply negb_true_iff in H
  | H : negb _ = false |- _ => apply negb_false_iff in H
  | H : Z.eqb _ _ = true |- _ => apply Z.eqb_eq in H
  | H : Z.eqb _ _ = false |- _ => apply Z.eqb_neq in H
  end.

(** X5.  The messages a call of [Router] returns are of two kinds only:
    for a sentence whose field 1 is "1", the message made of field 5 with
    padding 0; for a sentence whose field 1 is not "1" and whose field 2
    parses to 1, the message of type 255 with empty payload.  No message
    carries a padding other than 0 or the payload of a part of a spanning
    message. *)
Theorem Router_message_shapes (s : string) (m : Message) :
  Router s = Done (Msg m) ->
  (field s 1 = Some "1" /\ field s 5 = Some (Payload m) /\
   Type_ m = MessageType (Payload m) /\ Padding m = 0) \/
  (m = sentinel /\
   exists t1 t2, field s 1 = Some t1 /\ t1 <> "1" /\
                 field s 2 = Some t2 /\ Go.Atoi t2 = (1, true)).
Proof.
  rewrite Router_flat.
  repeat flat_step; try discriminate; intros [= <-]; facts; subst.
  all: first
    [ left; solve [repeat split; auto using field_index]
    | right; split; [reflexivity|];
      match goal with
      | H1 : Go.index _ 1 = Done ?a, H2 : Go.index _ 2 = Done ?b |- _ =>
          exists a, b
      end;
      repeat split; auto using field_index;
      destruct (Go.Atoi _) as [n ok]; simpl in *; congruence ].
Qed.

(** X6.  Each error names its cause: "empty line" is returned exactly for
    the empty sentence, "checksum failed" exactly for a non-empty
    sentence the checksum test refuses, "sentence isn't AIVDM/AIVDO"
    exactly when the checksum is right and bytes 1 to 4 of the first field
    are not in the table of identifiers, and "incomplete/out of order
    span sentence" exactly when the sentence is past these checks, its
    field 1 is not "1" and its field 2 parses to an integer other
    than 1. *)
Theorem Router_error_causes (s : string) :
  (Router s = Done (Err "empty line") <-> s = "") /\
  (Router s = Done (Err "checksum failed") <->
   s <> "" /\ Nmea183ChecksumCheck s = false) /\
  (Router s = Done (Err "sentence isn't AIVDM/AIVDO") <->
   s <> "" /\ Nmea183ChecksumCheck s = true /\
   exists tag, identifier (Go.Split s) = Done tag /\ aisIdentifiers tag = false) /\
  (Router s = Done (Err out_of_order) <->
   cleared s = true /\
   exists t1 t2 n, field s 1 = Some t1 /\ t1 <> "1" /\
                   field s 2 = Some t2 /\ Go.Atoi t2 = (n, true) /\ n <> 1).
Proof.
  repeat apply conj.
  - rewrite Router_flat. destruct (Go.len s =? 0) eqn:Hlen.
    + intros _. now apply len_zero.
    + repeat flat_step; clash.
  - intros ->. now rewrite Router_flat.
  - rewrite Router_flat. destruct (Go.len s =? 0) eqn:Hlen; [clash|].
    assert (s <> "") by (intros ->; discriminate).
    destruct (Nmea183ChecksumCheck s); [|intros _; now split].
    cbn [negb]. repeat flat_step; clash.
  - intros (Hs & Hc). rewrite Router_flat.
    destruct (Go.len s =? 0) eqn:Hlen; [now apply len_zero in Hlen|].
    now rewrite Hc.
  - rewrite Router_flat. destruct (Go.len s =? 0) eqn:Hlen; [clash|].
    assert (s <> "") by (intros ->; discriminate).
    destruct (Nmea183ChecksumCheck s); [|clash]. cbn [negb].
    destruct (identifier (Go.Split s)) as [tag|]; [|clash]. cbn [bind].
    destruct (aisIdentifiers tag) eqn:Hais; cbn [negb].
    + repeat flat_step; clash.
    + intros _. repeat split; auto. now exists tag.
  - intros (Hs & Hc & tag & Ht & Ha). rewrite Router_flat.
    destruct (Go.len s =? 0) eqn:Hlen; [now apply len_zero in Hlen|].
    rewrite Hc, Ht. cbn [negb bind]. now rewrite Ha.
  - rewrite Router_flat. unfold cleared.
    destruct (Go.len s =? 0); [clash|].
    destruct (Nmea183ChecksumCheck s); [|clash]. cbn [negb andb].
    destruct (identifier (Go.Split s)) as [tag|]; [|clash]. cbn [bind].
    destruct (aisIdentifiers tag); [|clash]. cbn [negb].
    repeat flat_step; try clash; intros _; (split; [reflexivity|]); facts.
    all: match goal with
         | H1 : Go.index _ 1 = Done ?a, H2 : Go.index _ 2 = Done ?b |- _ =>
             exists a, b, (fst (Go.Atoi b))
         end;
         repeat split; auto using field_index;
         destruct (Go.Atoi _) as [n ok]; simpl in *; congruence.
  - intros (Hc & t1 & t2 & n & H1 & Hne & H2 & Hat & Hn).
    destruct (cleared_inv s Hc) as (Hlen & Hchk & tag & Htag & Hais).
    rewrite Router_flat, Hlen, Hchk. cbn [negb]. rewrite Htag. cbn [bind].
    rewrite Hais. cbn [negb].
    rewrite (index_field _ _ _ H1). cbn [bind].
    apply String.eqb_neq in Hne. rewrite Hne.
    rewrite (index_field _ _ _ H2). cbn [bind].
    rewrite Hat. cbn [fst snd negb].
    apply Z.eqb_neq in Hn. now rewrite Hn.
Qed.

(** ** The body from any values of the local variables *)

Lemma slice_first_byte (t q : string) :
  Go.slice t 0 1 = Done q -> exists c, q = String c "".
Proof.
  unfold Go.slice. destruct t as [|c r]; simpl; [discriminate|].
  intros [= <-]. exists c. now destruct r.
Qed.

(** [strconv.Atoi] on one byte gives the digit, or 0 with an error. *)
Lemma Atoi_one_byte (c : ascii) : 0 <= fst (Go.Atoi (String c "")) <= 9.
Proof.
  unfold Go.Atoi.
  destruct (Ascii.eqb c "-"%char) eqn:Em; [simpl; lia|].
  destruct (Ascii.eqb c "+"%char); [simpl; lia|].
  cbn [orb Go.digits]. unfold Go.is_digit.
  destruct (48 <=? Go.code c) eqn:E1; [|simpl; lia].
  destruct (Go.code c <=? 57) eqn:E2; [|simpl; lia].
  apply Z.leb_le in E1, E2. cbn [andb negb].
  unfold Go.maxUint64, Go.maxInt.
  destruct (Z.leb_spec ((2 ^ 64 - 1) / 10 + 1) 0) as [L|_].
  { assert (0 < (2 ^ 64 - 1) / 10 + 1) by (vm_compute; reflexivity). lia. }
  destruct (Z.ltb_spec (2 ^ 64 - 1) (0 * 10 + (Go.code c - 48))); [lia|].
  destruct (Z.ltb_spec (2 ^ 63 - 1) (0 * 10 + (Go.code c - 48))); [lia|].
  simpl fst. lia.
Qed.

(** How a run of the body gets to lines 91-104: past the checks, on the
    path for spanning messages, with a field 2 that parses, and either
    in sequence or as a first part after a reset with [count <= 0]. *)
Lemma Router_body_taken_in (st : Locals) (s : string) (e : Exit) :
  Router_body st s = Done e -> site e = L101 \/ site e = L104 ->
  exists t1 t2,
    field s 1 = Some t1 /\ t1 <> "1" /\
    field s 2 = Some t2 /\ snd (Go.Atoi t2) = true /\
    ((discontinuous (set_ccount (fst (Go.Atoi t2)) st) (Go.Split s) = Done false /\
      Router_accept (set_ccount (fst (Go.Atoi t2)) st) s (Go.Split s) = Done e) \/
     ((0 <? count st) = false /\ fst (Go.Atoi t2) = 1 /\
      Router_accept
        (set_payload "" (set_count 0 (set_ccount (fst (Go.Atoi t2)) st)))
        s (Go.Split s) = Done e)).
Proof.
  unfold Router_body.
  destruct (Go.len s =? 0). { intros [= <-] [|]; discriminate. }
  destruct (Nmea183ChecksumCheck s); cbn [negb].
  2:{ intros [= <-] [|]; discriminate. }
  destruct (identifier (Go.Split s)) as [tag|]; cbn [bind]; [|discriminate].
  destruct (aisIdentifiers tag); cbn [negb].
  2:{ intros [= <-] [|]; discriminate. }
  destruct (Go.index (Go.Split s) 1) as [t1|] eqn:H1; cbn [bind]; [|discriminate].
  destruct (String.eqb t1 "1") eqn:Ht1.
  { destruct (Go.index (Go.Split s) 5); cbn [bind]; [|discriminate].
    intros [= <-] [|]; discriminate. }
  unfold Router_span.
  destruct (Go.index (Go.Split s) 2) as [t2|] eqn:H2; cbn [bind]; [|discriminate].
  destruct (snd (Go.Atoi t2)) eqn:Hok; cbn [negb].
  2:{ intros [= <-] [|]; discriminate. }
  destruct (discontinuous _ _) as [d|] eqn:Hd; cbn [bind]; [|discriminate].
  intros H Hsite. exists t1, t2. facts.
  repeat split; auto using field_index.
  destruct d.
  - right.
    change (count (set_ccount (fst (Go.Atoi t2)) st)) with (count st) in H.
    destruct (0 <? count st); [injection H as <-; destruct Hsite; discriminate|].
    change (ccount (set_ccount (fst (Go.Atoi t2)) st))
      with (fst (Go.Atoi t2)) in H.
    destruct (fst (Go.Atoi t2) =? 1) eqn:Hn; cbn [negb] in H.
    + facts. auto.
    + injection H as <-. destruct Hsite; discriminate.
  - left. auto.
Qed.

(** X7.  From any values of the local variables, a run of the body that
    leaves through line 101 returns a message with an empty payload, the
    classifier's value on the empty payload as its type and a padding
    between 0 and 9, and leaves [count = 0] and [payload] empty: lines
    99-100 empty [payload] before line 101 reads it. *)
Theorem completion_builds_empty_message (st : Locals) (s : string) (e : Exit) :
  Router_body st s = Done e -> site e = L101 ->
  exists p,
    returned e = Msg (mkMessage (MessageType "") "" p) /\ 0 <= p <= 9 /\
    count (locals e) = 0 /\ payload (locals e) = "".
Proof.
  intros H Hsite.
  destruct (Router_body_taken_in st s e H (or_introl Hsite))
    as (t1 & t2 & _ & _ & _ & _ & [[_ Ha]|(_ & _ & Ha)]);
    revert Ha; unfold Router_accept;
    repeat flat_step; try clash; intros [= <-]; try discriminate.
  all: match goal with
       | H : Go.slice _ 0 1 = Done ?q |- _ =>
           destruct (slice_first_byte _ _ H) as [c ->];
           exists (Go.uint8 (fst (Go.Atoi (String c ""))))
       end;
       pose proof (Atoi_one_byte c) as B;
       cbn [returned locals payload padding count set_payload set_count
            set_padding];
       unfold Go.uint8; rewrite Z.mod_small by lia; repeat split; lia.
Qed.

Lemma int_in_range (z : Z) : Go.minInt <= z <= Go.maxInt -> Go.int z = z.
Proof.
  unfold Go.int, Go.minInt, Go.maxInt. intros H.
  rewrite Z.mod_small; lia.
Qed.

(** The continuity test of lines 79-81 passes with a session in progress
    only for the next part of the same message. *)
Lemma continuous_in_progress (st : Locals) (toks : list string) :
  0 < count st < Go.maxInt ->
  discontinuous st toks = Done false ->
  ccount st = count st + 1 /\
  Go.index toks 3 = Done (id st) /\ Go.index toks 1 = Done (size st).
Proof.
  intros Hc. unfold discontinuous.
  rewrite int_in_range by (unfold Go.minInt, Go.maxInt in *; lia).
  destruct (Z.eqb_spec (ccount st) (count st + 1)) as [Hn|]; [|clash].
  destruct (Z.eqb_spec (count st) 0) as [|_]; [lia|]. cbn [negb].
  destruct (Go.index toks 3) as [t3|]; cbn [bind]; [|clash].
  rewrite andb_true_r.
  destruct (String.eqb_spec t3 (id st)) as [->|]; [|clash]. cbn [negb].
  destruct (Go.index toks 1) as [t1|]; cbn [bind]; [|clash].
  rewrite andb_true_r.
  destruct (String.eqb_spec t1 (size st)) as [->|]; [|clash].
  auto.
Qed.

(** X8.  With a session in progress ([0 < count]), a run of the body
    takes a sentence in (it leaves through line 101 or 104) only if the
    sentence is the next part of the same message: field 2 parses to
    [count + 1], field 3 is [id] and field 1 is [size].  When the run
    leaves through line 104, field 5 has been appended to [payload],
    [count] is one more, and [size] and [id] are unchanged. *)
Theorem continuation_is_in_sequence (st : Locals) (s : string) (e : Exit) :
  0 < count st < Go.maxInt ->
  Router_body st s = Done e -> site e = L101 \/ site e = L104 ->
  field s 1 = Some (size st) /\ field s 3 = Some (id st) /\
  exists t2 t5,
    field s 2 = Some t2 /\ Go.Atoi t2 = (count st + 1, true) /\
    field s 5 = Some t5 /\
    (site e = L104 ->
     payload (locals e) = (payload st ++ t5)%string /\
     count (locals e) = count st + 1 /\
     size (locals e) = size st /\ id (locals e) = id st).
Proof.
  intros Hc H Hsite.
  destruct (Router_body_taken_in st s e H Hsite)
    as (t1 & t2 & H1 & Hne & H2 & Hok & [[Hd Ha]|(Hz & _)]).
  2:{ apply Z.ltb_ge in Hz. lia. }
  apply continuous_in_progress in Hd; [|exact Hc].
  destruct Hd as (Hn & H3 & H1'). cbn [ccount count id size set_ccount] in *.
  repeat split; auto using field_index.
  assert (Hat : Go.Atoi t2 = (count st + 1, true)).
  { destruct (Go.Atoi t2) as [n ok]. simpl in *. congruence. }
  revert Ha. unfold Router_accept.
  destruct (Go.index (Go.Split s) 5) as [t5|] eqn:H5; cbn [bind]; [|clash].
  destruct (Go.store _ _ _) as [c'|]; cbn [bind]; [|clash].
  cbn [ccount count payload size id set_ccount set_payload set_cache set_count].
  rewrite Hn.
  destruct (Z.eqb_spec (count st + 1) 1) as [|_]; [lia|].
  repeat flat_step; try clash; intros [= <-].
  all: exists t2, t5; repeat split; auto using field_index;
       try discriminate;
       cbn [locals payload count size id set_count set_payload set_cache
            set_ccount set_padding];
       rewrite ?int_in_range by (unfold Go.minInt, Go.maxInt in *; lia);
       auto.
Qed.

(** X9.  The array [cache] has five places: with five parts taken in,
    the next part of the same message makes the body panic at line 92. *)
Theorem sixth_part_panics (st : Locals) (s t2 : string) :
  List.length (cache st) = 5%nat ->
  5 <= count st < Go.maxInt ->
  cleared s = true ->
  field s 1 = Some (size st) -> size st <> "1" ->
  field s 2 = Some t2 -> Go.Atoi t2 = (count st + 1, true) ->
  field s 3 = Some (id st) ->
  (5 < List.length (Go.Split s))%nat ->
  Router_body st s = Panic.
Proof.
  intros Hcache Hc Hcl H1 Hne H2 Hat H3 Hlen.
  rewrite (Router_body_cleared _ _ Hcl).
  rewrite (index_field _ _ _ H1). cbn [bind].
  apply String.eqb_neq in Hne. rewrite Hne.
  unfold Router_span. rewrite (index_field _ _ _ H2). cbn [bind].
  rewrite Hat. cbn [fst snd negb].
  unfold discontinuous.
  cbn [ccount count id size set_ccount].
  rewrite int_in_range by (unfold Go.minInt, Go.maxInt in *; lia).
  rewrite Z.eqb_refl. cbn [negb].
  rewrite (index_field _ _ _ H3). cbn [bind].
  rewrite String.eqb_refl. cbn [negb andb].
  rewrite (index_field _ _ _ H1). cbn [bind].
  rewrite String.eqb_refl. cbn [negb andb].
  unfold Router_accept.
  destruct (index_length (Go.Split s) 5) as [t5 H5]; [lia|].
  rewrite H5. cbn [bind].
  cbn [ccount cache set_payload set_ccount].
  unfold Go.store. rewrite Hcache.
  rewrite int_in_range by (unfold Go.minInt, Go.maxInt in *; lia).
  destruct (Z.ltb_spec (count st + 1 - 1) (Z.of_nat 5)) as [L|_]; [lia|].
  now rewrite andb_false_r.
Qed.

(** X12.  With a session in progress, a sentence on the path for spanning
    messages that is not the next part of the same message (another
    number, another sequence id or another size; a new first part is
    one) is answered with the error of line 83, and the session is
    left as it was: the return inside the loop of lines 82-84 comes
    before the reset of lines 88-89. *)
Theorem mismatch_keeps_session (st : Locals) (s t1 t2 t3 : string) (n : Z) :
  0 < count st < Go.maxInt ->
  cleared s = true ->
  field s 1 = Some t1 -> t1 <> "1" ->
  field s 2 = Some t2 -> Go.Atoi t2 = (n, true) ->
  field s 3 = Some t3 ->
  n <> count st + 1 \/ t3 <> id st \/ t1 <> size st ->
  Router_body st s = Done (mkExit L83 (Err out_of_order) (set_ccount n st)).
Proof.
  intros Hc Hcl H1 Hne H2 Hat H3 Hmis.
  rewrite (Router_body_cleared _ _ Hcl).
  rewrite (index_field _ _ _ H1). cbn [bind].
  apply String.eqb_neq in Hne. rewrite Hne.
  unfold Router_span. rewrite (index_field _ _ _ H2). cbn [bind].
  rewrite Hat. cbn [fst snd negb].
  assert (D : discontinuous (set_ccount n st) (Go.Split s) = Done true).
  { unfold discontinuous. cbn [ccount count id size set_ccount].
    rewrite int_in_range by (unfold Go.minInt, Go.maxInt in *; lia).
    destruct (Z.eqb_spec n (count st + 1)) as [En|]; [|reflexivity].
    destruct (Z.eqb_spec (count st) 0) as [|_]; [lia|]. cbn [negb].
    rewrite (index_field _ _ _ H3). cbn [bind]. rewrite andb_true_r.
    destruct (String.eqb_spec t3 (id st)) as [E3|]; [|reflexivity].
    cbn [negb]. rewrite (index_field _ _ _ H1). cbn [bind].
    rewrite andb_true_r.
    destruct (String.eqb_spec t1 (size st)) as [E|]; [|reflexivity].
    destruct Hmis as [|[|]]; contradiction. }
  rewrite D. cbn [bind count set_ccount].
  destruct (Z.ltb_spec 0 (count st)) as [_|]; [reflexivity|lia].
Qed.

End Properties.

(** ** The fields of a sentence *)

(** X10.  The fields that line 62 cuts a sentence into, joined again by
    commas, are the sentence: no byte is lost or added. *)
Theorem Split_concat (s : string) : String.concat "," (Go.Split s) = s.
Proof.
  induction s as [|c r IH]; [reflexivity|].
  cbn [Go.Split].
  destruct (Ascii.eqb_spec c ","%char) as [->|_].
  - destruct (Go.Split r) as [|t ts] eqn:E.
    + simpl in IH. now subst r.
    + change (String.concat "," ("" :: t :: ts))
        with (String "," (String.concat "," (t :: ts))).
      now rewrite IH.
  - destruct (Go.Split r) as [|t ts]; [simpl in IH; now subst r|].
    destruct ts as [|u us].
    + simpl in IH. now subst r.
    + change (String.concat "," (String c t :: u :: us))
        with (String c (t ++ "," ++ String.concat "," (u :: us))).
      f_equal. exact IH.
Qed.

(** X11.  A sentence has one field more than it has commas, so it has at
    least one, and no field holds a comma. *)
Theorem Split_fields (s : string) :
  List.length (Go.Split s) =
  S (count_occ ascii_dec (list_ascii_of_string s) ","%char) /\
  Forall (fun t => ~ In ","%char (list_ascii_of_string t)) (Go.Split s).
Proof.
  induction s as [|c r [IHn IHf]].
  - split; [reflexivity|]. constructor; [intros []|constructor].
  - cbn [Go.Split list_ascii_of_string count_occ].
    destruct (Ascii.eqb_spec c ","%char) as [->|Hc].
    + destruct (ascii_dec "," ","); [|congruence].
      split; [simpl; now rewrite IHn|].
      constructor; [intros []|exact IHf].
    + destruct (ascii_dec c ","); [congruence|].
      destruct (Go.Split r) as [|t ts]; [discriminate|].
      split; [exact IHn|].
      inversion IHf as [|? ? Ht Hts]; subst.
      constructor; [|exact Hts].
      simpl. intros [E|E]; [congruence|now apply Ht].
Qed.

(** * The function run on concrete sentences *)

(** C1.  Two parts of one message, fed in order with right checksums: the
    second call ends with the error of line 86 and no message carries the
    two payloads.  Were the local variables of the first call still there
    in the second, the call would leave through line 101, after lines 99
    and 100 have emptied [payload]: the message built there has an empty
    payload. *)
Theorem in_order_parts_not_reassembled :
  run_calls [part1; part2] = [Done (Msg sentinel); Done (Err out_of_order)] /\
  (e1 <- run_body fresh part1 ;;
   e2 <- run_body (locals e1) part2 ;;
   Done (site e2, returned e2)) =
  Done (L101, Msg (mkMessage (Collaborators.classifyType "") "" 2)).
Proof. split; vm_compute; reflexivity. Qed.

(** C2.  The first call ends with [count = 1], [size = "2"], [id = "3"]
    and the first payload in its local variables; the call on the second
    part starts from [fresh] and leaves through line 86, which is reached
    only with [count = 0]. *)
Theorem session_lost_between_calls :
  (e1 <- run_body fresh part1 ;;
   Done (count (locals e1), size (locals e1), id (locals e1), payload (locals e1))) =
  Done (1, "2", "3", payload1) /\
  run part2 = (e <- run_body fresh part2 ;; Done (returned e)) /\
  run_site part2 = Done L86.
Proof. repeat split; vm_compute; reflexivity. Qed.

(** C3.  The first part of a spanning message is taken in, and the call
    hands back a message value, of type 255, where the claim has no
    message and no error. *)
Lemma pending_call_returns_a_message :
  cleared Collaborators.verifyChecksum part1 = true /\
  field part1 1 = Some "2" /\ field part1 2 = Some "1" /\
  run_site part1 = Done L104 /\
  run part1 = Done (Msg (mkMessage 255 "" 0)).
Proof. repeat split; vm_compute; reflexivity. Qed.

(** C4.  Sentences with a right checksum on which a call panics: a first
    field shorter than five bytes (line 68), no field 5 on a one-sentence
    message (line 73), no field 5 on a first part (line 91). *)
Theorem Router_panics_on_short_sentences :
  run "!A,B*2F" = Panic /\
  run "!AIVDM,1,1*57" = Panic /\
  run "!AIVDM,2,1,3*4B" = Panic.
Proof. repeat split; vm_compute; reflexivity. Qed.

(** C7.  A sentence with a right checksum, a recognised identifier and
    field 1 equal to "1", but no field 5: the call panics at line 73
    and returns no message. *)
Theorem single_sentence_without_field5_panics :
  cleared Collaborators.verifyChecksum single_short = true /\
  field single_short 1 = Some "1" /\
  field single_short 5 = None /\
  run single_short = Panic.
Proof. repeat split; vm_compute; reflexivity. Qed.

(** C5.  A first part, the second part with a wrong checksum, the second
    part again with the right one: the last call does not complete the
    message. *)
Theorem corrupted_part_then_correct_part :
  run_calls [part1; part2_corrupted; part2] =
  [Done (Msg sentinel); Done (Err "checksum failed"); Done (Err out_of_order)].
Proof. vm_compute. reflexivity. Qed.

(** C6.  After a first part, a part of another sequence is answered like
    any first part, with no error.  Were the local variables of the first
    call still there, the call would leave through line 83, before lines
    88 and 89: [count] and [payload] would be what they were. *)
Theorem injected_part_not_reported :
  run_calls [part1; injected] = [Done (Msg sentinel); Done (Msg sentinel)] /\
  (e1 <- run_body fresh part1 ;;
   e2 <- run_body (locals e1) injected ;;
   Done (site e2, returned e2, count (locals e2), payload (locals e2))) =
  Done (L83, Err out_of_order, 1, payload1).
Proof. split; vm_compute; reflexivity. Qed.

(** ** The general statements at concrete sentences *)

Lemma Router_single_sentence_at_single :
  cleared Collaborators.verifyChecksum single = true /\
  field single 1 = Some "1" /\
  field single 5 = Some "15NPOOPP00G?5ABEdu>pEowb0" /\
  run single = Done (Msg (mkMessage 1 "15NPOOPP00G?5ABEdu>pEowb0" 0)) /\
  run_site single = Done L73.
Proof.
  assert (C : cleared Collaborators.verifyChecksum single = true) by by_running.
  assert (F1 : field single 1 = Some "1") by by_running.
  assert (F5 : field single 5 = Some "15NPOOPP00G?5ABEdu>pEowb0") by by_running.
  exact (conj C (conj F1 (conj F5
           (Router_single_sentence Collaborators.verifyChecksum
              Collaborators.classifyType single _ C F1 F5)))).
Defined.

Lemma Router_bad_index_at_misnumbered :
  cleared Collaborators.verifyChecksum misnumbered = true /\
  field misnumbered 1 = Some "2" /\ "2" <> "1" /\
  field misnumbered 2 = Some "x" /\ snd (Go.Atoi "x") = false /\
  run misnumbered = Done (Err "here: x") /\
  run_site misnumbered = Done L77.
Proof.
  assert (C : cleared Collaborators.verifyChecksum misnumbered = true) by by_running.
  assert (F1 : field misnumbered 1 = Some "2") by by_running.
  assert (N : "2" <> "1") by discriminate.
  assert (F2 : field misnumbered 2 = Some "x") by by_running.
  assert (A : snd (Go.Atoi "x") = false) by by_running.
  exact (conj C (conj F1 (conj N (conj F2 (conj A
           (Router_bad_index Collaborators.verifyChecksum
              Collaborators.classifyType misnumbered _ _ C F1 N F2 A)))))).
Defined.

Lemma Router_pending_is_sentinel_at_part1 :
  cleared Collaborators.verifyChecksum part1 = true /\
  field part1 1 = Some "2" /\ "2" <> "1" /\
  field part1 2 = Some "1" /\ Go.Atoi "1" = (1, true) /\
  (5 < List.length (Go.Split part1))%nat /\
  run part1 = Done (Msg sentinel) /\ run_site part1 = Done L104.
Proof.
  assert (C : cleared Collaborators.verifyChecksum part1 = true) by by_running.
  assert (F1 : field part1 1 = Some "2") by by_running.
  assert (N : "2" <> "1") by discriminate.
  assert (F2 : field part1 2 = Some "1") by by_running.
  assert (A : Go.Atoi "1" = (1, true)) by by_running.
  assert (L : (5 < List.length (Go.Split part1))%nat) by by_running.
  exact (conj C (conj F1 (conj N (conj F2 (conj A (conj L
           (Router_pending_is_sentinel Collaborators.verifyChecksum
              Collaborators.classifyType part1 _ _ C F1 N F2 A L))))))).
Defined.

Lemma Router_rejection_idempotent_at_part2 :
  exists e1,
    run_body fresh part2 = Done e1 /\ returned e1 = Err out_of_order /\
    (exists e2,
        run_body (locals e1) part2 = Done e2 /\
        returned e2 = Err out_of_order /\ site e2 = site e1) /\
    (fresh = fresh ->
     run_calls [part2; part2] =
     [Done (Err out_of_order); Done (Err out_of_order)]).
Proof.
  destruct (run_body fresh part2) as [e1|] eqn:E;
    [|vm_compute in E; discriminate].
  assert (R : returned e1 = Err out_of_order).
  { vm_compute in E. injection E as <-. reflexivity. }
  exists e1. split; [reflexivity|]. split; [exact R|].
  exact (Router_rejection_idempotent Collaborators.verifyChecksum
           Collaborators.classifyType fresh part2 out_of_order e1 E R).
Defined.

Lemma Router_later_part_rejected_at_part2 :
  cleared Collaborators.verifyChecksum part2 = true /\
  field part2 1 = Some "2" /\ "2" <> "1" /\
  field part2 2 = Some "2" /\ Go.Atoi "2" = (2, true) /\ 2 <> 1 /\
  run part2 = Done (Err out_of_order) /\
  run_site part2 <> Done L101.
Proof.
  assert (C : cleared Collaborators.verifyChecksum part2 = true) by by_running.
  assert (F1 : field part2 1 = Some "2") by by_running.
  assert (N : "2" <> "1") by discriminate.
  assert (F2 : field part2 2 = Some "2") by by_running.
  assert (A : Go.Atoi "2" = (2, true)) by by_running.
  assert (M : 2 <> 1) by lia.
  pose proof (Router_later_part_rejected Collaborators.verifyChecksum
                Collaborators.classifyType) as [T1 T2].
  exact (conj C (conj F1 (conj N (conj F2 (conj A (conj M
           (conj (T1 part2 _ _ _ C F1 N F2 A M) (T2 part2)))))))).
Defined.

Lemma checksum_failure_keeps_locals_at_part2_corrupted :
  part2_corrupted <> "" /\
  Collaborators.verifyChecksum part2_corrupted = false /\
  run_body fresh part2_corrupted =
  Done (mkExit L65 (Err "checksum failed") fresh).
Proof.
  assert (N : part2_corrupted <> "") by discriminate.
  assert (V : Collaborators.verifyChecksum part2_corrupted = false) by by_running.
  exact (conj N (conj V
           (checksum_failure_keeps_locals Collaborators.verifyChecksum
              Collaborators.classifyType fresh part2_corrupted N V))).
Defined.

Lemma rejection_is_stable_at_part2 :
  exists e,
    run_body fresh part2 = Done e /\ returned e = Err out_of_order /\
    run_body (locals e) part2 = Done e.
Proof.
  destruct (run_body fresh part2) as [e|] eqn:E; [|vm_compute in E; discriminate].
  assert (R : returned e = Err out_of_order).
  { vm_compute in E. injection E as <-. reflexivity. }
  exists e. repeat split; [exact R|].
  exact (proj2 (rejection_is_stable Collaborators.verifyChecksum
                  Collaborators.classifyType fresh part2 out_of_order e E R)).
Defined.

Lemma Router_returns_on_long_sentences_at_part1 :
  (5 < List.length (Go.Split part1))%nat /\
  field part1 0 = Some "!AIVDM" /\ (5 <= String.length "!AIVDM")%nat /\
  exists r, run part1 = Done r.
Proof.
  assert (L : (5 < List.length (Go.Split part1))%nat) by by_running.
  assert (F : field part1 0 = Some "!AIVDM") by by_running.
  assert (T : (5 <= String.length "!AIVDM")%nat) by by_running.
  exact (conj L (conj F (conj T
           (Router_returns_on_long_sentences Collaborators.verifyChecksum
              Collaborators.classifyType part1 _ L F T)))).
Defined.

Lemma Router_message_shapes_at_single :
  run single = Done (Msg (mkMessage 1 "15NPOOPP00G?5ABEdu>pEowb0" 0)) /\
  ((field single 1 = Some "1" /\
    field single 5 = Some "15NPOOPP00G?5ABEdu>pEowb0" /\
    1 = Collaborators.classifyType "15NPOOPP00G?5ABEdu>pEowb0" /\ 0 = 0) \/
   (mkMessage 1 "15NPOOPP00G?5ABEdu>pEowb0" 0 = sentinel /\
    exists t1 t2, field single 1 = Some t1 /\ t1 <> "1" /\
                  field single 2 = Some t2 /\ Go.Atoi t2 = (1, true))).
Proof.
  assert (R : run single = Done (Msg (mkMessage 1 "15NPOOPP00G?5ABEdu>pEowb0" 0)))
    by by_running.
  exact (conj R (Router_message_shapes Collaborators.verifyChecksum
                   Collaborators.classifyType single _ R)).
Defined.

Lemma completion_builds_empty_message_at_part2 :
  exists e,
    run_body after_part1 part2 = Done e /\ site e = L101 /\
    exists p,
      returned e = Msg (mkMessage (Collaborators.classifyType "") "" p) /\
      0 <= p <= 9 /\ count (locals e) = 0 /\ payload (locals e) = "".
Proof.
  destruct (run_body after_part1 part2) as [e|] eqn:E;
    [|vm_compute in E; discriminate].
  assert (S : site e = L101).
  { vm_compute in E. injection E as <-. reflexivity. }
  exists e. split; [reflexivity|]. split; [exact S|].
  exact (completion_builds_empty_message Collaborators.verifyChecksum
           Collaborators.classifyType after_part1 part2 e E S).
Defined.

Lemma continuation_is_in_sequence_at_three_2 :
  0 < count after_three_1 < Go.maxInt /\
  exists e,
    run_body after_three_1 three_2 = Done e /\ site e = L104 /\
    field three_2 1 = Some (size after_three_1) /\
    field three_2 3 = Some (id after_three_1) /\
    exists t2 t5,
      field three_2 2 = Some t2 /\
      Go.Atoi t2 = (count after_three_1 + 1, true) /\
      field three_2 5 = Some t5 /\
      (site e = L104 ->
       payload (locals e) = (payload after_three_1 ++ t5)%string /\
       count (locals e) = count after_three_1 + 1 /\
       size (locals e) = size after_three_1 /\
       id (locals e) = id after_three_1).
Proof.
  assert (C : 0 < count after_three_1 < Go.maxInt) by (vm_compute; split; reflexivity).
  split; [exact C|].
  destruct (run_body after_three_1 three_2) as [e|] eqn:E;
    [|vm_compute in E; discriminate].
  assert (S : site e = L104).
  { vm_compute in E. injection E as <-. reflexivity. }
  exists e. split; [reflexivity|]. split; [exact S|].
  exact (continuation_is_in_sequence Collaborators.verifyChecksum
           Collaborators.classifyType after_three_1 three_2 e C E
           (or_intror S)).
Defined.

Lemma sixth_part_panics_at_sixth :
  List.length (cache five_taken) = 5%nat /\
  5 <= count five_taken < Go.maxInt /\
  cleared Collaborators.verifyChecksum sixth = true /\
  field sixth 1 = Some (size five_taken) /\ size five_taken <> "1" /\
  field sixth 2 = Some "6" /\ Go.Atoi "6" = (count five_taken + 1, true) /\
  field sixth 3 = Some (id five_taken) /\
  (5 < List.length (Go.Split sixth))%nat /\
  run_body five_taken sixth = Panic.
Proof.
  assert (A : List.length (cache five_taken) = 5%nat) by reflexivity.
  assert (B : 5 <= count five_taken < Go.maxInt)
    by (vm_compute; split; [discriminate|reflexivity]).
  assert (C : cleared Collaborators.verifyChecksum sixth = true) by by_running.
  assert (F1 : field sixth 1 = Some (size five_taken)) by by_running.
  assert (N : size five_taken <> "1") by discriminate.
  assert (F2 : field sixth 2 = Some "6") by by_running.
  assert (T : Go.Atoi "6" = (count five_taken + 1, true)) by by_running.
  assert (F3 : field sixth 3 = Some (id five_taken)) by by_running.
  assert (L : (5 < List.length (Go.Split sixth))%nat) by by_running.
  exact (conj A (conj B (conj C (conj F1 (conj N (conj F2 (conj T (conj F3
           (conj L
              (sixth_part_panics Collaborators.verifyChecksum
                 Collaborators.classifyType five_taken sixth "6"
                 A B C F1 N F2 T F3 L)))))))))).
Defined.

Lemma mismatch_keeps_session_at_injected :
  0 < count after_part1 < Go.maxInt /\
  cleared Collaborators.verifyChecksum injected = true /\
  field injected 1 = Some "2" /\ "2" <> "1" /\
  field injected 2 = Some "1" /\ Go.Atoi "1" = (1, true) /\
  field injected 3 = Some "7" /\
  (1 <> count after_part1 + 1 \/ "7" <> id after_part1 \/
   "2" <> size after_part1) /\
  run_body after_part1 injected =
  Done (mkExit L83 (Err out_of_order) (set_ccount 1 after_part1)).
Proof.
  assert (B : 0 < count after_part1 < Go.maxInt)
    by (vm_compute; split; reflexivity).
  assert (C : cleared Collaborators.verifyChecksum injected = true) by by_running.
  assert (F1 : field injected 1 = Some "2") by by_running.
  assert (N : "2" <> "1") by discriminate.
  assert (F2 : field injected 2 = Some "1") by by_running.
  assert (T : Go.Atoi "1" = (1, true)) by by_running.
  assert (F3 : field injected 3 = Some "7") by by_running.
  assert (M : 1 <> count after_part1 + 1 \/ "7" <> id after_part1 \/
              "2" <> size after_part1)
    by (right; left; discriminate).
  exact (conj B (conj C (conj F1 (conj N (conj F2 (conj T (conj F3 (conj M
           (mismatch_keeps_session Collaborators.verifyChecksum
              Collaborators.classifyType after_part1 injected "2" "1" "7" 1
              B C F1 N F2 T F3 M))))))))).
Defined.
